(** * LLM_summacum: the question loop of [main_v1.py]

    A shallow embedding of the interactive loop of [main] (lines 196-224),
    of [LLMInvoker.invokellm], [LLMInvoker.groundedness_check] and
    [Tools.call_tool_func], and the properties of the answer / verify /
    fallback orchestration that hold of them.

    The set-up lines of [main] (document loading, database connection,
    vector store, [Tools()]) are not modelled: the loop is taken from the
    point where [llm_invoker] and [tool] are bound, [tool] to an instance
    of [Tools].  The retrieval chain, the
    groundedness service and the tool-bound chat model are services outside
    the file; they are a record of functions over an abstract world, and a
    call to one of them is taken to return. *)

From stdpp Require Import base strings gmap list pretty.
From Stdlib Require Import Ascii String Lia.

Open Scope string_scope.
Open Scope list_scope.
Set Default Proof Using "Type".

(** ** Python strings

    A [str] is a Rocq [string] whose characters are the code points 0..255.
    On that range [str.lower] maps A-Z and the Latin-1 capitals
    (U+00C0..U+00DE without the multiplication sign U+00D7) to the code
    point 32 above, and leaves every other character alone. *)

Definition lower_char (c : ascii) : ascii :=
  let n := nat_of_ascii c in
  if (((65 <=? n) && (n <=? 90))
      || ((192 <=? n) && (n <=? 222) && negb (n =? 215)))%nat
  then ascii_of_nat (n + 32)
  else c.

Fixpoint lower (s : string) : string :=
  match s with
  | EmptyString => EmptyString
  | String c rest => String (lower_char c) (lower rest)
  end.

(** [s.startswith(prefix)] *)
Definition startswith (s prefix : string) : bool := String.prefix prefix s.

(** Truth value of a list: [if tool_calls:] *)
Definition truthy {A : Type} (l : list A) : bool :=
  match l with
  | [] => false
  | _ :: _ => true
  end.

(** The template literal passed to [invokellm] at line 200 and, character
    for character the same, at line 220. *)
Definition template : string :=
  "Answer the question based only on the following context:
                                                        {context} 
                                                        Question: {question} 
                                                     ".

(** ** Values, exceptions and the observable trace *)

(** The exceptions the modelled lines can raise. *)
Inductive exn : Type :=
| TypeError
| AttributeError
| EOFError.

(** One entry of [AIMessage.tool_calls]: the dict's ["name"] and ["args"]. *)
Record tool_call : Type := ToolCall {
  tc_name : string;
  tc_args : list (string * string)
}.

(** What a call can hand back to [str(...)] at line 218. *)
Inductive pyval : Type :=
| PyNone
| PyStr (s : string).

(** What is passed to [call_tool_func]: a [Tools] instance (the receiver of
    a call through an instance) or a tool-call dict. *)
Inductive pyarg : Type :=
| ToolsInstance
| ToolCallDict (tc : tool_call).

(** [str(v)] *)
Definition py_str (v : pyval) : string :=
  match v with
  | PyNone => "None"
  | PyStr s => s
  end.

(** Everything the loop does that can be seen from outside, in order. *)
Inductive event : Type :=
| Input (prompt line : string)
    (* input(prompt) returned line *)
| InvokeChain (tmpl question response : string)
    (* chain.invoke(question) in invokellm *)
| InvokeGroundedness (response verdict : string)
    (* UpstageGroundednessCheck().invoke(response) *)
| InvokeLlm (user_input : string) (tool_calls : list tool_call)
    (* llm_invoker.llm.invoke(user_input).tool_calls *)
| PrintLine (text : string)
    (* one print(...) line on standard output *)
| CreateIndex.
    (* OracleDBIndex.create_index(conn, vector_store), line 227 *)

(** Result of a computation: a value or a raised exception. *)
Inductive res (A : Type) : Type :=
| Ret (a : A)
| Raise (e : exn).
Arguments Ret {A} a.
Arguments Raise {A} e.

(** How an iteration of [while True] ends. *)
Inductive flow : Type :=
| Continue
| Break.

(** The services outside the file.  [chain_invoke tmpl question] is the
    chain [retriever | prompt | llm | StrOutputParser] that [invokellm]
    builds from [tmpl] and invokes on [question]; [groundedness_invoke] is
    [UpstageGroundednessCheck().invoke]; [llm_invoke] is the [tool_calls] of
    the message the tool-bound model returns. *)
Record services (World : Type) : Type := Services {
  chain_invoke : string -> string -> World -> string * World;
  groundedness_invoke : string -> World -> string * World;
  llm_invoke : string -> World -> list tool_call * World
}.
Arguments chain_invoke {World} _ _ _ _.
Arguments groundedness_invoke {World} _ _ _.
Arguments llm_invoke {World} _ _ _.

(** ** A state, trace and exception monad *)

Definition M (World A : Type) : Type := World -> res A * list event * World.

Definition ret {World A} (a : A) : M World A := fun w => (Ret a, [], w).

Definition raise {World A} (e : exn) : M World A := fun w => (Raise e, [], w).

Definition bind {World A B} (m : M World A) (k : A -> M World B) : M World B :=
  fun w =>
    match m w with
    | (Ret a, t, w') =>
        match k a w' with
        | (r, t', w'') => (r, t ++ t', w'')
        end
    | (Raise e, t, w') => (Raise e, t, w')
    end.

Notation "x <- m ;; k" := (bind m (fun x => k))
  (at level 100, m at next level, right associativity).
Notation "m ;; k" := (bind m (fun _ => k))
  (at level 100, right associativity).

(** Record an event. *)
Definition emit {World} (e : event) : M World unit := fun w => (Ret tt, [e], w).

(** Call a service and record what it returned. *)
Definition service {World A} (f : World -> A * World) (ev : A -> event) : M World A :=
  fun w => let (a, w') := f w in (Ret a, [ev a], w').

(** [print(a, b, ...)]: the arguments separated by one space. *)
Definition py_print {World} (args : list string) : M World unit :=
  emit (PrintLine (String.concat " " args)).

(** Projections of a run. *)
Definition result_of {World A} (x : res A * list event * World) : res A := fst (fst x).
Definition trace_of {World A} (x : res A * list event * World) : list event := snd (fst x).
Definition world_of {World A} (x : res A * list event * World) : World := snd x.

(** ** The module's global namespace

    [globals()] inside [call_tool_func] is the namespace of the module: the
    names bound by its [import], [class] and [def] statements and the names
    the interpreter gives every module.  [pdf_search] and [internet_search]
    are bound in the body of [class Tools], not here. *)

Inductive binding : Type :=
| BModule
| BFunction
| BClass (has_invoke : bool)
| BValue.

Definition module_globals : gmap string binding :=
  list_to_map
    [ ("__name__", BValue); ("__doc__", BValue); ("__package__", BValue);
      ("__loader__", BValue); ("__spec__", BValue); ("__annotations__", BValue);
      ("__builtins__", BValue); ("__file__", BValue); ("__cached__", BValue);
      ("os", BModule); ("warnings", BModule); ("pprint", BFunction);
      ("time", BModule); ("load_dotenv", BFunction); ("OpenAI", BClass false);
      ("oracledb", BModule); ("TavilyClient", BClass false);
      ("UpstageLayoutAnalysisLoader", BClass false);
      ("UpstageEmbeddings", BClass false); ("ChatUpstage", BClass true);
      ("UpstageGroundednessCheck", BClass true);
      ("HumanMessage", BClass false); ("SystemMessage", BClass false);
      ("oraclevs", BModule); ("OracleVS", BClass false);
      ("DistanceStrategy", BClass false);
      ("BaseDocumentTransformer", BClass false); ("Document", BClass false);
      ("PromptTemplate", BClass true); ("LLMChain", BClass true);
      ("RunnablePassthrough", BClass true); ("StrOutputParser", BClass true);
      ("Language", BClass false);
      ("RecursiveCharacterTextSplitter", BClass false); ("tool", BFunction);
      ("DataLoader", BClass false); ("UpstageAPI", BClass false);
      ("OracleDB", BClass false); ("EmbeddingSettings", BClass false);
      ("LLMInvoker", BClass false); ("OracleDBIndex", BClass false);
      ("Tools", BClass false); ("main", BFunction) ].

(** [selected_tool.invoke(args)] on what a global name is bound to.  A
    module, a plain function and a module attribute such as [__name__] have
    no [invoke]; a class that has one hands out the plain function, whose
    first parameter is the receiver, so the single argument is one too
    few. *)
Definition invoke_global {World} (selected_tool : binding)
    (args : list (string * string)) : M World pyval :=
  match selected_tool with
  | BClass true => raise TypeError
  | BModule | BFunction | BClass false | BValue => raise AttributeError
  end.

(** ** Calling a function defined in a class body *)

Record pyfunction (World : Type) : Type := Def {
  params : list string;
  body : list pyarg -> M World pyval
}.
Arguments params {World} _.
Arguments body {World} _ _.

(** [f(a1, ..., an)]: the positional arguments must be as many as the
    parameters. *)
Definition call {World} (f : pyfunction World) (actuals : list pyarg) : M World pyval :=
  if Nat.eqb (List.length actuals) (List.length (params f))
  then body f actuals
  else raise TypeError.

(** [obj.f(a1, ..., an)] for a function found on the class of [obj]: the
    instance is passed first. *)
Definition call_method {World} (obj : pyarg) (f : pyfunction World)
    (actuals : list pyarg) : M World pyval :=
  call f (obj :: actuals).

(** ** The program *)

Definition no_answer : string := "I'm sorry, I don't have an answer for that.".

(** [x in [a, b]] on strings *)
Definition str_in (x : string) (l : list string) : bool :=
  existsb (String.eqb x) l.

Section Program.
Context {World : Type} (svc : services World).

(** [LLMInvoker.invokellm], lines 118-127. *)
Definition invokellm (question tmpl : string) : M World string :=
  service (chain_invoke svc tmpl question) (InvokeChain tmpl question).

(** [LLMInvoker.groundedness_check], lines 128-131. *)
Definition groundedness_check (response : string) : M World bool :=
  groundedness_result <-
    service (groundedness_invoke svc response) (InvokeGroundedness response) ;;
  ret (startswith (lower groundedness_result) "Grounded").

(** The statements of [call_tool_func], lines 167-173. *)
Definition call_tool_func (tool_call : tool_call) : M World pyval :=
  let tool_name := lower (tc_name tool_call) in
  match module_globals !! tool_name with
  | None =>
      py_print ["Tool not found"; tool_name] ;;
      ret PyNone
  | Some selected_tool => invoke_global selected_tool (tc_args tool_call)
  end.

(** [def call_tool_func(tool_call)], line 166: one parameter, no
    receiver.  Subscripting anything but the dict is a [TypeError]. *)
Definition def_call_tool_func : pyfunction World :=
  {| params := ["tool_call"];
     body := fun actuals =>
       match actuals with
       | [ToolCallDict tool_call] => call_tool_func tool_call
       | _ => raise TypeError
       end |}.

(** Lines 208-211: [for _ in range(n)] with [break] on a non-empty
    answer; the variable keeps the last answer. *)
Fixpoint probe_loop (n : nat) (user_input : string)
    (tool_calls : list tool_call) : M World (list tool_call) :=
  match n with
  | O => ret tool_calls
  | S n' =>
      tool_calls <- service (llm_invoke svc user_input) (InvokeLlm user_input) ;;
      if truthy tool_calls
      then ret tool_calls
      else probe_loop n' user_input tool_calls
  end.

(** Lines 217-218, [context += str(<call>)] for each request in order, with
    the call expression as a parameter. *)
Fixpoint resolve_with (resolve : tool_call -> M World pyval)
    (tool_calls : list tool_call) (context : string) : M World string :=
  match tool_calls with
  | [] => ret context
  | tool_call :: rest =>
      v <- resolve tool_call ;;
      resolve_with resolve rest (context +:+ py_str v)
  end.

(** The call expression of line 218, [tool.call_tool_func(tool_call)], where
    [tool] is the [Tools] instance of line 193: a call through an
    instance. *)
Definition tool_call_tool_func (tool_call : tool_call) : M World pyval :=
  call_method ToolsInstance def_call_tool_func [ToolCallDict tool_call].

(** Lines 217-218 as they are. *)
Definition resolve_loop (tool_calls : list tool_call) (context : string)
    : M World string :=
  resolve_with tool_call_tool_func tool_calls context.

(** Lines 200-224: one iteration of [while True] after the exit test.
    [context] is built at lines 216-218 and not passed on: line 220 calls
    [invokellm] with the question and the template again. *)
Definition main_body (user_input : string) : M World flow :=
  response <- invokellm user_input template ;;
  grounded <- groundedness_check response ;;
  if grounded then
    py_print ["Bot:"; response] ;;
    ret Continue
  else
    tool_calls <- probe_loop 3 user_input [] ;;
    if negb (truthy tool_calls) then
      py_print [no_answer] ;;
      ret Break
    else
      context <- resolve_loop tool_calls "" ;;
      response <- invokellm user_input template ;;
      py_print ["Bot:"; response] ;;
      ret Continue.

(** Lines 196-224.  Standard input is the list of lines still to be
    read; [input] at end of input raises [EOFError]. *)
Fixpoint main_loop (stdin : list string) : M World unit :=
  match stdin with
  | [] => raise EOFError
  | user_input :: stdin' =>
      emit (Input "You: " user_input) ;;
      if str_in (lower user_input) ["exit"; "quit"] then ret tt
      else
        f <- main_body user_input ;;
        match f with
        | Break => ret tt
        | Continue => main_loop stdin'
        end
  end.

(** [main] from line 196 to its end. *)
Definition main (stdin : list string) : M World unit :=
  main_loop stdin ;;
  emit CreateIndex.

End Program.

(** ** Scripted services

    The world is the number of probes made so far; the chain always answers
    [answer], the groundedness service always says [verdict], and the
    [n]-th probe returns [probes n]. *)
Definition scripted (answer verdict : string) (probes : nat -> list tool_call)
    : services nat :=
  {| chain_invoke := fun _ _ w => (answer, w);
     groundedness_invoke := fun _ w => (verdict, w);
     llm_invoke := fun _ w => (probes w, S w) |}.

Definition web_search_call : tool_call :=
  {| tc_name := "internet_search"; tc_args := [("query", "capital of Korea")] |}.


Definition unknown_call : tool_call :=
  {| tc_name := "calculator"; tc_args := [("expression", "1+1")] |}.

Definition pdf_search_call : tool_call :=
  {| tc_name := "pdf_search"; tc_args := [("query", "capital of Korea")] |}.

Definition main_call : tool_call :=
  {| tc_name := "Main"; tc_args := [] |}.

(** ** Reading a trace *)

Definition is_chain (e : event) : bool :=
  match e with InvokeChain _ _ _ => true | _ => false end.

Definition is_verification (e : event) : bool :=
  match e with InvokeGroundedness _ _ => true | _ => false end.

Definition is_probe (e : event) : bool :=
  match e with InvokeLlm _ _ => true | _ => false end.

Definition is_external (e : event) : bool :=
  is_chain e || is_verification e || is_probe e.

Fixpoint count_events (p : event -> bool) (t : list event) : nat :=
  match t with
  | [] => 0
  | e :: t' => (if p e then 1 else 0) + count_events p t'
  end.

(** The lines printed, in order. *)
Fixpoint printed (t : list event) : list string :=
  match t with
  | [] => []
  | PrintLine text :: t' => text :: printed t'
  | _ :: t' => printed t'
  end.

(** What each probe returned, in order. *)
Fixpoint probes_of (t : list event) : list (list tool_call) :=
  match t with
  | [] => []
  | InvokeLlm _ tool_calls :: t' => tool_calls :: probes_of t'
  | _ :: t' => probes_of t'
  end.

(** No probe follows one that returned a non-empty list. *)
Fixpoint stops_at_first_nonempty (probes : list (list tool_call)) : bool :=
  match probes with
  | [] => true
  | p :: rest =>
      if truthy p
      then match rest with [] => true | _ :: _ => false end
      else stops_at_first_nonempty rest
  end.

(** ** Conditions on the services *)

Section Conditions.
Context {World : Type} (svc : services World).

(** The world in which the first probe of a question is made: after the
    primary generation and its verification. *)
Definition world_at_fallback (user_input : string) (w : World) : World :=
  let (response, w1) := chain_invoke svc template user_input w in
  snd (groundedness_invoke svc response w1).

(** The next [n] probes for [user_input] all return the empty list. *)
Fixpoint probes_empty (n : nat) (user_input : string) (w : World) : bool :=
  match n with
  | O => true
  | S n' =>
      let (tool_calls, w') := llm_invoke svc user_input w in
      negb (truthy tool_calls) && probes_empty n' user_input w'
  end.

(** What a service answers depends on what it is asked, not on the world. *)
Definition deterministic : Prop :=
  (forall tmpl question w w',
      fst (chain_invoke svc tmpl question w) = fst (chain_invoke svc tmpl question w'))
  /\ (forall response w w',
      fst (groundedness_invoke svc response w) = fst (groundedness_invoke svc response w'))
  /\ (forall user_input w w',
      fst (llm_invoke svc user_input w) = fst (llm_invoke svc user_input w')).

End Conditions.

(** * The set-up classes

    The classes [main] uses before its loop.  Their library calls are
    parameters; the file system and the process environment are finite
    maps. *)

(** The exceptions of the set-up code. *)
Inductive setup_exn : Type :=
| FileNotFoundError (name : string)
| KeyError (key : string)
| NameError (name : string)
| LibraryError (what : string).

Inductive outcome (A : Type) : Type :=
| Done (a : A)
| Failed (e : setup_exn).
Arguments Done {A} a.
Arguments Failed {A} e.

(** [s.endswith(suffix)]: [suffix] is [s] or the end of [s]. *)
Fixpoint endswith (s suffix : string) : bool :=
  String.eqb s suffix
  || match s with
     | EmptyString => false
     | String _ rest => endswith rest suffix
     end.

(** The f-string of line 54: the counter in decimal, then ".pdf". *)
Definition numbered (counter : nat) : string := pretty counter +:+ ".pdf".

(** The names [load_data] renames, in the order of the listing. *)
Definition pdfs (listing : list string) : list string :=
  List.filter (fun filename => endswith filename ".pdf") listing.

(** ** [DataLoader], lines 45-62

    The directory [data_path] is a map from the names of its entries to
    files.  Both paths given to [os.rename] are [os.path.join] of
    [data_path] and a name without separator (one that [os.listdir]
    returned, or the f-string), so both are entries of that directory.
    [os.rename] is the POSIX one: a missing source is [FileNotFoundError],
    an existing destination is replaced.  [listing] is what [os.listdir]
    returned, in the order it returned it. *)

Section DataLoaderModel.
Context {File Docs : Type}.

(** [UpstageLayoutAnalysisLoader(path, split="page").load()] on the file
    found at the path. *)
Context (layout_load : string -> File -> Docs).

Record DataLoader : Type := {
  data_path : string;
  docs_dict : gmap string Docs
}.

(** [DataLoader.__init__], lines 46-48. *)
Definition DataLoader_init (path : string) : DataLoader :=
  {| data_path := path; docs_dict := empty |}.

Definition os_rename (src dst : string) (dir : gmap string File)
    : outcome (gmap string File) :=
  match dir !! src with
  | None => Failed (FileNotFoundError src)
  | Some file => Done (<[dst := file]> (delete src dir))
  end.

(** The [for] loop of lines 52-61, with [counter], the directory and
    [self.docs_dict] as they stand. *)
Fixpoint load_loop (filenames : list string) (counter : nat)
    (dir : gmap string File) (docs : gmap string Docs)
    : outcome (nat * gmap string File * gmap string Docs) :=
  match filenames with
  | [] => Done (counter, dir, docs)
  | filename :: rest =>
      if endswith filename ".pdf" then
        let new_filename := numbered counter in
        match os_rename filename new_filename dir with
        | Failed e => Failed e
        | Done dir' =>
            match dir' !! new_filename with
            | None => Failed (FileNotFoundError new_filename)
            | Some file =>
                load_loop rest (counter + 1) dir'
                  (<[new_filename := layout_load new_filename file]> docs)
            end
        end
      else load_loop rest counter dir docs
  end.

(** [DataLoader.load_data], lines 50-62: the object with its dict filled
    (the dict is also what is returned) and the directory afterwards. *)
Definition load_data (self : DataLoader) (listing : list string)
    (dir : gmap string File) : outcome (DataLoader * gmap string File) :=
  match load_loop listing 1 dir (docs_dict self) with
  | Failed e => Failed e
  | Done (_, dir', docs') =>
      Done ({| data_path := data_path self; docs_dict := docs' |}, dir')
  end.

End DataLoaderModel.

(** A small directory: two PDFs and a text file, files and documents as
    numbers. *)
Definition sample_listing : list string := ["b.pdf"; "notes.txt"; "a.pdf"].

Definition sample_dir : gmap string nat :=
  list_to_map [("a.pdf", 10); ("b.pdf", 20); ("notes.txt", 30)].

Definition sample_load (path : string) (file : nat) : nat := file + 1.

(** ** [os.environ]

    The environment of the process after [load_dotenv()] of line 42, a map
    from names to values; [os.environ[key]] raises [KeyError] for a name
    that is not set. *)
Definition environ_getitem (environ : gmap string string) (key : string)
    : outcome string :=
  match environ !! key with
  | Some value => Done value
  | None => Failed (KeyError key)
  end.

(** ** [OracleDB], lines 82-95 *)

Section OracleDBModel.
Context {Conn World : Type}.

Record OracleDB : Type := {
  username : string;
  password : string;
  dsn : string;
  conn : option Conn
}.

(** [OracleDB.__init__], lines 83-87. *)
Definition OracleDB_init (environ : gmap string string) : outcome OracleDB :=
  match environ_getitem environ "DB_USER" with
  | Failed e => Failed e
  | Done user =>
      match environ_getitem environ "DB_PASSWORD" with
      | Failed e => Failed e
      | Done pass =>
          match environ_getitem environ "DSN" with
          | Failed e => Failed e
          | Done name =>
              Done {| username := user; password := pass; dsn := name;
                      conn := None |}
          end
      end
  end.

(** The database driver: [oracledb.connect(user=, password=, dsn=)] returns
    a connection or raises ([None]), and reading [.version] of a
    connection gives a string or raises ([None]). *)
Record driver : Type := Driver {
  oracledb_connect : string -> string -> string -> World -> option Conn * World;
  version : Conn -> option string
}.

(** [OracleDB.connect], lines 89-95: what is returned, the lines printed,
    the object and the world afterwards.  [except Exception] takes both a
    failed [oracledb.connect] and a failed read of [.version]; in the second
    case [self.conn] has been assigned already. *)
Definition connect (drv : driver) (self : OracleDB) (w : World)
    : option Conn * list string * OracleDB * World :=
  let (attempt, w') :=
    oracledb_connect drv (username self) (password self) (dsn self) w in
  match attempt with
  | None => (conn self, ["Connection failed!"], self, w')
  | Some c =>
      let self' :=
        {| username := username self; password := password self;
           dsn := dsn self; conn := Some c |} in
      match version drv c with
      | Some v => (conn self', ["Connection successful! " +:+ v], self', w')
      | None => (conn self', ["Connection failed!"], self', w')
      end
  end.

End OracleDBModel.

(** A driver that connects on the first call only; the world counts the
    calls. *)
Definition flaky_driver : driver (Conn := nat) (World := nat) :=
  {| oracledb_connect := fun _ _ _ w =>
       (if Nat.eqb w 0 then Some 7 else None, S w);
     version := fun _ => Some "19.0" |}.

Definition sample_environ : gmap string string :=
  list_to_map [("DB_USER", "scott"); ("DB_PASSWORD", "tiger"); ("DSN", "db/xe")].

(** ** [Tools.__init__], lines 146-147

    A name in a function body that is not a local of the function is
    looked up in the module's global namespace and then among the
    builtins; the body of the enclosing class is not searched. *)
Definition load_global (builtins : gset string) (name : string) : outcome string :=
  match module_globals !! name with
  | Some _ => Done name
  | None =>
      if bool_decide (elem_of name builtins)
      then Done name
      else Failed (NameError name)
  end.

Record Tools : Type := { tools : list string }.

(** [self.tools = [pdf_search, internet_search]]: the list display evaluates
    its elements from the left; neither name is a local ([self] is the only
    one). *)
Definition Tools_init (builtins : gset string) : outcome Tools :=
  match load_global builtins "pdf_search" with
  | Failed e => Failed e
  | Done first =>
      match load_global builtins "internet_search" with
      | Failed e => Failed e
      | Done second => Done {| tools := [first; second] |}
      end
  end.

Definition some_builtins : gset string :=
  list_to_set ["print"; "input"; "str"; "len"; "range"; "globals"].

(** ** The set-up of [main], lines 177-194 *)

Section MainSetup.
Context {File Docs Conn World : Type}.

(** The library calls of the set-up that are not modelled further; each
    returns or raises.  [chat] gives the lines [pprint] shows for the
    result. *)
Record libraries : Type := Libraries {
  os_listdir : string -> outcome (list string);
  layout : string -> File -> Docs;
  chat : string -> outcome (list string);
  db : driver (Conn := Conn) (World := World);
  new_embedding_settings : option Conn -> gmap string Docs -> outcome unit;
  get_vector_store : outcome unit;
  as_retriever : outcome unit;
  new_llm_invoker : outcome unit;
  add_tools : Tools -> outcome unit
}.

(** Go on with [k] when [x] returned; an exception ends the set-up. *)
Definition and_then {A B : Type} (x : outcome A)
    (k : A -> outcome B * list string) : outcome B * list string :=
  match x with
  | Done a => k a
  | Failed e => (Failed e, [])
  end.

(** Lines printed before the rest of the set-up runs. *)
Definition printing {B : Type} (lines : list string)
    (rest : outcome B * list string) : outcome B * list string :=
  (fst rest, lines ++ snd rest).

(** Lines 177-194 of [main]: the [Tools] object the loop would use, or the
    exception that ended the set-up, and the lines printed. *)
Definition main_setup (lib : libraries) (environ : gmap string string)
    (builtins : gset string) (dir : gmap string File) (w : World)
    : outcome Tools * list string :=
  and_then (os_listdir lib "data/") (fun listing =>
  and_then (load_data (layout lib) (DataLoader_init "data/") listing dir)
    (fun loaded =>
  and_then (environ_getitem environ "UPSTAGE_API_KEY") (fun api_key =>
  and_then (chat lib "What about Korea?") (fun chat_result =>
  printing chat_result (
  and_then (OracleDB_init environ) (fun oracle_db =>
  let '(conn, lines, _, _) := connect (db lib) oracle_db w in
  printing lines (
  and_then (new_embedding_settings lib conn (docs_dict (fst loaded))) (fun _ =>
  and_then (get_vector_store lib) (fun _ =>
  and_then (as_retriever lib) (fun _ =>
  and_then (new_llm_invoker lib) (fun _ =>
  and_then (Tools_init builtins) (fun tool =>
  and_then (add_tools lib tool) (fun _ =>
  (Done tool, [])))))))))))))).

End MainSetup.

(** Libraries that all return. *)
Definition working_libraries : libraries :=
  {| os_listdir := fun _ => Done sample_listing;
     layout := sample_load;
     chat := fun _ => Done ["ChatCompletion(...)"];
     db := flaky_driver;
     new_embedding_settings := fun _ _ => Done tt;
     get_vector_store := Done tt;
     as_retriever := Done tt;
     new_llm_invoker := Done tt;
     add_tools := fun _ => Done tt |}.

Definition working_environ : gmap string string :=
  <["UPSTAGE_API_KEY" := "up_key"]> sample_environ.

(** ** More on the loop *)

Section MoreConditions.
Context {World : Type} (svc : services World).

(** The world after [n] probes for [user_input]. *)
Fixpoint world_after_probes (n : nat) (user_input : string) (w : World) : World :=
  match n with
  | O => w
  | S n' => world_after_probes n' user_input (snd (llm_invoke svc user_input w))
  end.

End MoreConditions.

(** * Properties *)

(** ** Strings *)

Lemma lower_char_not_G (c : ascii) : lower_char c <> "G"%char.
Proof.
  destruct c as [[] [] [] [] [] [] [] []]; vm_compute; discriminate.
Qed.

Lemma startswith_lower_Grounded (s : string) :
  startswith (lower s) "Grounded" = false.
Proof.
  destruct s as [|c rest]; [reflexivity|].
  unfold startswith. cbn [lower].
  change (String.prefix "Grounded" (String (lower_char c) (lower rest)))
    with (if Ascii.ascii_dec "G"%char (lower_char c)
          then String.prefix "rounded" (lower rest) else false).
  destruct (Ascii.ascii_dec "G"%char (lower_char c)) as [E|]; [|reflexivity].
  exfalso. apply (lower_char_not_G c). congruence.
Qed.

Example lower_grounded : lower "Grounded" = "grounded".
Proof. reflexivity. Qed.

Example lower_ascii : lower "NotGROUNDED" = "notgrounded".
Proof. reflexivity. Qed.

(** U+00C9 goes to U+00E9, the multiplication sign U+00D7 stays. *)
Example lower_latin1 :
  lower (String (ascii_of_nat 201) (String (ascii_of_nat 215) ""))
  = String (ascii_of_nat 233) (String (ascii_of_nat 215) "").
Proof. reflexivity. Qed.

Lemma str_app_cons (c : ascii) (s t : string) :
  String c s +:+ t = String c (s +:+ t).
Proof. reflexivity. Qed.

Lemma str_app_nil_r (s : string) : s +:+ "" = s.
Proof.
  induction s as [|c s IH]; [reflexivity|].
  rewrite str_app_cons, IH. reflexivity.
Qed.

Lemma str_app_assoc (a b c : string) : (a +:+ b) +:+ c = a +:+ (b +:+ c).
Proof.
  induction a as [|x a IH]; [reflexivity|].
  rewrite !str_app_cons, IH. reflexivity.
Qed.

Lemma concat_empty_cons (x : string) (l : list string) :
  String.concat "" (x :: l) = x +:+ String.concat "" l.
Proof.
  destruct l as [|y l]; cbn [String.concat].
  - now rewrite str_app_nil_r.
  - reflexivity.
Qed.

(** ** Traces *)

Lemma count_events_app (p : event -> bool) (t t' : list event) :
  count_events p (t ++ t') = count_events p t + count_events p t'.
Proof. induction t as [|e t IH]; cbn; [reflexivity|]. rewrite IH. lia. Qed.

Lemma count_probes_map (user_input : string) (probes : list (list tool_call)) :
  count_events is_probe (map (InvokeLlm user_input) probes) = List.length probes.
Proof. induction probes as [|x probes IH]; cbn; congruence. Qed.

Lemma count_other_map (p : event -> bool) (user_input : string)
    (probes : list (list tool_call)) :
  (forall tcs, p (InvokeLlm user_input tcs) = false) ->
  count_events p (map (InvokeLlm user_input) probes) = 0.
Proof.
  intros H. induction probes as [|x probes IH]; cbn; [reflexivity|].
  rewrite H, IH. reflexivity.
Qed.

Lemma probes_of_app (t t' : list event) :
  probes_of (t ++ t') = probes_of t ++ probes_of t'.
Proof.
  induction t as [|e t IH]; cbn; [reflexivity|].
  destruct e; cbn; rewrite IH; reflexivity.
Qed.

Lemma probes_of_map (user_input : string) (probes : list (list tool_call)) :
  probes_of (map (InvokeLlm user_input) probes) = probes.
Proof. induction probes as [|x probes IH]; cbn; congruence. Qed.

(** ** Runs of the parts of the loop *)

Section Runs.
Context {World : Type} (svc : services World).

Lemma invokellm_run (question tmpl : string) (w : World) :
  invokellm svc question tmpl w
  = (Ret (fst (chain_invoke svc tmpl question w)),
     [InvokeChain tmpl question (fst (chain_invoke svc tmpl question w))],
     snd (chain_invoke svc tmpl question w)).
Proof.
  unfold invokellm, service.
  destruct (chain_invoke svc tmpl question w); reflexivity.
Qed.

Lemma groundedness_check_run (response : string) (w : World) :
  groundedness_check svc response w
  = (Ret false,
     [InvokeGroundedness response (fst (groundedness_invoke svc response w))],
     snd (groundedness_invoke svc response w)).
Proof.
  unfold groundedness_check, bind, service, ret.
  destruct (groundedness_invoke svc response w) as [verdict w']; cbn.
  rewrite startswith_lower_Grounded. reflexivity.
Qed.

(** A call through the instance hands two arguments to a function of one
    parameter. *)
Lemma tool_call_tool_func_run (tc : tool_call) (w : World) :
  tool_call_tool_func tc w = (Raise TypeError, [], w).
Proof. reflexivity. Qed.

Lemma resolve_loop_cons (tc : tool_call) (rest : list tool_call)
    (context : string) (w : World) :
  resolve_loop (tc :: rest) context w = (Raise TypeError, [], w).
Proof. reflexivity. Qed.

Lemma resolve_loop_truthy (tool_calls : list tool_call) (context : string)
    (w : World) :
  truthy tool_calls = true ->
  resolve_loop tool_calls context w = (Raise TypeError, [], w).
Proof.
  destruct tool_calls as [|tc rest]; [discriminate|].
  intros _. apply resolve_loop_cons.
Qed.

(** The accumulation of lines 216-218 itself keeps the request order: with
    a call expression that returns [f tool_call], the context is the
    strings of the results, first request first. *)
Lemma resolve_with_returning (f : tool_call -> pyval)
    (tool_calls : list tool_call) (context : string) (w : World) :
  resolve_with (fun tc => ret (f tc)) tool_calls context w
  = (Ret (context +:+ String.concat "" (map (fun tc => py_str (f tc)) tool_calls)),
     [], w).
Proof.
  revert context. induction tool_calls as [|tc rest IH]; intros context.
  - cbn. unfold ret. now rewrite str_app_nil_r.
  - cbn [resolve_with]. unfold bind at 1. unfold ret at 1.
    rewrite IH. cbn [app map]. rewrite concat_empty_cons.
    now rewrite str_app_assoc.
Qed.

(** The probe loop never raises. *)
Lemma probe_loop_returns (n : nat) (user_input : string)
    (tool_calls : list tool_call) (w : World) :
  exists tcs, result_of (probe_loop svc n user_input tool_calls w) = Ret tcs.
Proof.
  revert tool_calls w. induction n as [|n IH]; intros tool_calls w.
  - exists tool_calls. reflexivity.
  - cbn [probe_loop]. unfold bind, service.
    destruct (llm_invoke svc user_input w) as [tcs w'].
    destruct (truthy tcs).
    + exists tcs. reflexivity.
    + destruct (IH tcs w') as [tcs' E]. exists tcs'.
      unfold result_of in *.
      destruct (probe_loop svc n user_input tcs w') as [[r t] w''].
      cbn in *. exact E.
Qed.

(** The trace of the probe loop: at most [n] probes, at least one when
    [n] is positive, and none after a non-empty answer. *)
Lemma probe_loop_trace (n : nat) (user_input : string)
    (tool_calls : list tool_call) (w : World) :
  exists probes,
    trace_of (probe_loop svc n user_input tool_calls w)
      = map (InvokeLlm user_input) probes
    /\ List.length probes <= n
    /\ (0 < n -> probes <> [])
    /\ stops_at_first_nonempty probes = true.
Proof.
  revert tool_calls w. induction n as [|n IH]; intros tool_calls w.
  - exists []. cbn. repeat split; [lia | lia].
  - cbn [probe_loop]. unfold bind, service.
    destruct (llm_invoke svc user_input w) as [tcs w'].
    destruct (truthy tcs) eqn:T.
    + exists [tcs]. cbn. rewrite T. repeat split; [lia | discriminate].
    + destruct (IH tcs w') as (probes & Ht & Hlen & _ & Hstop).
      exists (tcs :: probes). unfold trace_of in *.
      destruct (probe_loop svc n user_input tcs w') as [[r t] w''].
      cbn in *. rewrite Ht, T. repeat split; [lia | discriminate | exact Hstop].
Qed.

(** When the next [n] probes are empty the loop makes all [n] of them. *)
Lemma probe_loop_empty (n : nat) (user_input : string) (w : World) :
  probes_empty svc n user_input w = true ->
  result_of (probe_loop svc n user_input [] w) = Ret []
  /\ trace_of (probe_loop svc n user_input [] w)
     = repeat (InvokeLlm user_input []) n.
Proof.
  revert w. induction n as [|n IH]; intros w H.
  - split; reflexivity.
  - cbn [probes_empty] in H. cbn [probe_loop]. unfold bind, service.
    destruct (llm_invoke svc user_input w) as [tcs w'].
    apply andb_prop in H as [E H].
    destruct tcs as [|tc tcs]; [|discriminate].
    cbn [truthy]. destruct (IH w' H) as [Hr Ht].
    unfold result_of, trace_of in *.
    destruct (probe_loop svc n user_input [] w') as [[r t] w''].
    cbn in *. subst. split; reflexivity.
Qed.

(** With deterministic services the probe loop does not depend on the
    world it starts in. *)
Lemma probe_loop_deterministic (n : nat) (user_input : string)
    (tool_calls : list tool_call) (w w' : World) :
  deterministic svc ->
  result_of (probe_loop svc n user_input tool_calls w)
    = result_of (probe_loop svc n user_input tool_calls w')
  /\ trace_of (probe_loop svc n user_input tool_calls w)
     = trace_of (probe_loop svc n user_input tool_calls w').
Proof.
  intros (_ & _ & Hllm).
  revert tool_calls w w'. induction n as [|n IH]; intros tool_calls w w'.
  - split; reflexivity.
  - cbn [probe_loop]. unfold bind, service.
    pose proof (Hllm user_input w w') as E.
    destruct (llm_invoke svc user_input w) as [tcs w1].
    destruct (llm_invoke svc user_input w') as [tcs' w1'].
    cbn in E. subst tcs'.
    destruct (truthy tcs).
    + split; reflexivity.
    + destruct (IH tcs w1 w1') as [Hr Ht].
      unfold result_of, trace_of in *.
      destruct (probe_loop svc n user_input tcs w1) as [[r t] w2].
      destruct (probe_loop svc n user_input tcs w1') as [[r' t'] w2'].
      cbn in *. subst. split; reflexivity.
Qed.

(** One iteration, in terms of its three stages: the primary generation,
    the verification and the probe loop.  With a non-empty answer of the
    probe loop the first resolution raises, with an empty one the apology
    is printed and the [while] loop is left. *)
Lemma main_body_run (user_input : string) (w : World) :
  let response := fst (chain_invoke svc template user_input w) in
  let w1 := snd (chain_invoke svc template user_input w) in
  let verdict := fst (groundedness_invoke svc response w1) in
  let w2 := snd (groundedness_invoke svc response w1) in
  let probing := probe_loop svc 3 user_input [] w2 in
  main_body svc user_input w
  = match result_of probing with
    | Ret tool_calls =>
        if truthy tool_calls
        then (Raise TypeError,
              InvokeChain template user_input response
                :: InvokeGroundedness response verdict :: trace_of probing,
              world_of probing)
        else (Ret Break,
              InvokeChain template user_input response
                :: InvokeGroundedness response verdict
                :: trace_of probing ++ [PrintLine no_answer],
              world_of probing)
    | Raise e =>
        (Raise e,
         InvokeChain template user_input response
           :: InvokeGroundedness response verdict :: trace_of probing,
         world_of probing)
    end.
Proof.
  intros response w1 verdict w2 probing.
  unfold main_body.
  unfold bind at 1. rewrite invokellm_run. fold response w1.
  unfold bind at 1. rewrite groundedness_check_run. fold verdict w2.
  unfold bind at 1. fold probing.
  unfold result_of, trace_of, world_of.
  destruct probing as [[[tool_calls|e] pt] w3]; cbn [fst snd].
  - destruct (truthy tool_calls) eqn:T; cbn [negb].
    + unfold bind at 1. rewrite (resolve_loop_truthy _ _ _ T).
      rewrite app_nil_r. reflexivity.
    + reflexivity.
  - reflexivity.
Qed.

End Runs.

(** ** The orchestration of one question *)

Section Orchestration.
Context {World : Type} (svc : services World).

(** An iteration never takes the grounded branch and never gets past the
    first resolution: it ends in the apology and [break], or in the
    [TypeError] of line 218. *)
Lemma main_body_outcome (user_input : string) (w : World) :
  result_of (main_body svc user_input w) = Ret Break
  \/ result_of (main_body svc user_input w) = Raise TypeError.
Proof.
  rewrite main_body_run.
  set (w2 := snd (groundedness_invoke svc _ _)).
  destruct (probe_loop_returns svc 3 user_input [] w2) as [tcs ->].
  destruct (truthy tcs); [right | left]; reflexivity.
Qed.

(** The trace of an iteration: generation, verification, the probes, and
    the apology when the last probe was empty. *)
Lemma main_body_trace (user_input : string) (w : World) :
  exists response verdict probes tail,
    trace_of (main_body svc user_input w)
      = InvokeChain template user_input response
          :: InvokeGroundedness response verdict
          :: map (InvokeLlm user_input) probes ++ tail
    /\ (tail = [] \/ tail = [PrintLine no_answer])
    /\ probes <> []
    /\ List.length probes <= 3
    /\ stops_at_first_nonempty probes = true.
Proof.
  rewrite main_body_run.
  set (w2 := snd (groundedness_invoke svc _ _)).
  destruct (probe_loop_trace svc 3 user_input [] w2) as (probes & Ht & Hlen & Hne & Hstop).
  destruct (probe_loop_returns svc 3 user_input [] w2) as [tcs ->].
  eexists _, _, probes.
  destruct (truthy tcs).
  - exists []. unfold trace_of at 1. cbn [fst snd]. rewrite Ht, app_nil_r.
    split; [reflexivity|]. split; [now left|]. split; [apply Hne; lia|].
    split; assumption.
  - exists [PrintLine no_answer]. unfold trace_of at 1. cbn [fst snd]. rewrite Ht.
    split; [reflexivity|]. split; [now right|]. split; [apply Hne; lia|].
    split; assumption.
Qed.

(** With deterministic services an iteration does not depend on the world
    it starts in. *)
Lemma main_body_deterministic (user_input : string) (w w' : World) :
  deterministic svc ->
  result_of (main_body svc user_input w) = result_of (main_body svc user_input w')
  /\ trace_of (main_body svc user_input w) = trace_of (main_body svc user_input w').
Proof.
  intros D. pose proof D as (Hchain & Hver & _).
  rewrite !main_body_run.
  rewrite (Hchain template user_input w' w).
  set (response := fst (chain_invoke svc template user_input w)).
  set (w1 := snd (chain_invoke svc template user_input w)).
  set (w1' := snd (chain_invoke svc template user_input w')).
  rewrite (Hver response w1' w1).
  set (w2 := snd (groundedness_invoke svc response w1)).
  set (w2' := snd (groundedness_invoke svc response w1')).
  destruct (probe_loop_deterministic svc 3 user_input [] w2 w2' D) as [Hr Ht].
  rewrite <- Hr, <- Ht.
  destruct (result_of (probe_loop svc 3 user_input [] w2)) as [tcs|e].
  - destruct (truthy tcs); split; reflexivity.
  - split; reflexivity.
Qed.

End Orchestration.

(** ** The session loop *)

(** What follows the first question on standard input is never read: the
    first iteration ends the loop by [exit]/[quit], by the [break] of line
    214 or by an exception. *)
Lemma main_loop_reads_one_line {World : Type} (svc : services World)
    (user_input : string) (rest rest' : list string) (w : World) :
  main_loop svc (user_input :: rest) w = main_loop svc (user_input :: rest') w.
Proof.
  cbn [main_loop]. unfold bind at 1 3. unfold emit at 1 2.
  destruct (str_in (lower user_input) ["exit"; "quit"]); [reflexivity|].
  unfold bind.
  destruct (main_body_outcome svc user_input w) as [E|E];
    unfold result_of in E;
    destruct (main_body svc user_input w) as [[r t] w']; cbn in E; subst r;
    reflexivity.
Qed.

(** ** The properties of the specification *)

(** C1 (the session goes on after the apology).  It does not: at a question
    whose three probes come back empty the loop prints the apology and runs
    the [break] of line 214, which leaves [while True]; the index is created
    and [main] returns, whatever lines were still waiting on standard
    input. *)
Theorem exhausted_question_ends_session (rest : list string) :
  main (scripted "I don't know" "notGrounded" (fun _ => []))
       ("What is the capital of Korea?" :: rest) 0
  = (Ret tt,
     [ Input "You: " "What is the capital of Korea?";
       InvokeChain template "What is the capital of Korea?" "I don't know";
       InvokeGroundedness "I don't know" "notGrounded";
       InvokeLlm "What is the capital of Korea?" [];
       InvokeLlm "What is the capital of Korea?" [];
       InvokeLlm "What is the capital of Korea?" [];
       PrintLine no_answer;
       CreateIndex ],
     3).
Proof. reflexivity. Qed.

(** C2 (a grounded primary answer is printed and no tool call is asked
    for).  It is not: with the verdict "grounded" the check of line 131 is
    still False, the primary answer is not printed, and the tool-call probes
    are made. *)
Theorem grounded_verdict_falls_back (question answer : string) :
  main_body (scripted answer "grounded" (fun _ => [])) question 0
  = (Ret Break,
     [ InvokeChain template question answer;
       InvokeGroundedness answer "grounded";
       InvokeLlm question [];
       InvokeLlm question [];
       InvokeLlm question [];
       PrintLine no_answer ],
     3).
Proof. reflexivity. Qed.

(** C3: whatever string the groundedness service returns,
    [groundedness_check] returns False, because a lowercased string does not
    start with "Grounded"; so no iteration takes the grounded branch: the
    verification is always followed by a tool-call probe. *)
Theorem groundedness_check_always_false :
  (forall verdict : string, startswith (lower verdict) "Grounded" = false)
  /\ (forall (World : Type) (svc : services World) (response : string) (w : World),
        result_of (groundedness_check svc response w) = Ret false)
  /\ (forall (World : Type) (svc : services World) (user_input : string) (w : World),
        exists response verdict tool_calls rest,
          trace_of (main_body svc user_input w)
          = InvokeChain template user_input response
              :: InvokeGroundedness response verdict
              :: InvokeLlm user_input tool_calls :: rest).
Proof.
  split; [exact startswith_lower_Grounded|]. split.
  - intros World svc response w. rewrite groundedness_check_run. reflexivity.
  - intros World svc user_input w.
    destruct (main_body_trace svc user_input w)
      as (response & verdict & probes & tail & Ht & _ & Hne & _).
    destruct probes as [|tcs probes]; [contradiction|].
    exists response, verdict, tcs, (map (InvokeLlm user_input) probes ++ tail).
    exact Ht.
Qed.

(** C4: when the three probes of a question all return the empty list, the
    apology is printed, the chain is invoked once (the primary generation)
    and not again, and nothing else is printed. *)
Theorem exhausted_probes_no_regeneration {World : Type} (svc : services World)
    (user_input : string) (w : World) :
  probes_empty svc 3 user_input (world_at_fallback svc user_input w) = true ->
  let run := main_body svc user_input w in
  let response := fst (chain_invoke svc template user_input w) in
  result_of run = Ret Break
  /\ (exists verdict,
        trace_of run
        = [ InvokeChain template user_input response;
            InvokeGroundedness response verdict;
            InvokeLlm user_input [];
            InvokeLlm user_input [];
            InvokeLlm user_input [];
            PrintLine no_answer ])
  /\ printed (trace_of run) = [no_answer]
  /\ count_events is_chain (trace_of run) = 1.
Proof.
  intros H run response. subst run.
  rewrite main_body_run. fold response.
  unfold world_at_fallback in H.
  destruct (chain_invoke svc template user_input w) as [r w1] eqn:Ec.
  cbn [fst snd] in *. subst response.
  destruct (probe_loop_empty svc 3 user_input _ H) as [Hr Ht].
  unfold result_of, trace_of in *.
  destruct (probe_loop svc 3 user_input [] _) as [[pr pt] w3].
  cbn [fst snd] in *. subst pr pt. cbn [truthy fst snd].
  split; [reflexivity|]. split; [eexists; reflexivity|].
  split; reflexivity.
Qed.

Lemma exhausted_probes_no_regeneration_witness :
  let svc := scripted "I don't know" "notGrounded" (fun _ => []) in
  let run := main_body svc "What is the capital of Korea?" 0 in
  result_of run = Ret Break
  /\ printed (trace_of run) = [no_answer]
  /\ count_events is_chain (trace_of run) = 1.
Proof.
  intros svc run.
  destruct (exhausted_probes_no_regeneration svc "What is the capital of Korea?" 0)
    as (Hr & _ & Hp & Hc); [reflexivity|].
  split; [exact Hr|]. split; [exact Hp|exact Hc].
Defined.

(** C5 (an unknown tool name gives a diagnostic, adds nothing to the context,
    raises nothing and lets the other requests be resolved).  Not so: in a
    round with an unknown name first, the call through the instance at line
    218 raises [TypeError] before the statements of [call_tool_func] run, so
    the iteration ends there, with no diagnostic and the second request
    untouched.  Called on the dict alone, [call_tool_func] prints the
    diagnostic and returns None, of which [str] is the four characters
    "None", not the empty text. *)
Theorem unknown_tool_aborts_round :
  main_body (scripted "I don't know" "notGrounded"
               (fun _ => [unknown_call; web_search_call]))
            "What is the capital of Korea?" 0
  = (Raise TypeError,
     [ InvokeChain template "What is the capital of Korea?" "I don't know";
       InvokeGroundedness "I don't know" "notGrounded";
       InvokeLlm "What is the capital of Korea?" [unknown_call; web_search_call] ],
     1)
  /\ call def_call_tool_func [ToolCallDict unknown_call] 0
     = (Ret PyNone, [PrintLine "Tool not found calculator"], 0)
  /\ py_str PyNone = "None"
  /\ String.length (py_str PyNone) = 4.
Proof. repeat split; vm_compute; reflexivity. Qed.

(** C6 as stated fails twice.  A request named "Main" is lowercased to
    "main", which is a module global: the lookup succeeds and the [.invoke]
    on the function raises [AttributeError].  And at line 218 the call goes
    through the instance, so even for "pdf_search" the statements of
    [call_tool_func] are not reached and no slot adds "None" to the
    context. *)
Lemma lookup_of_module_global_succeeds :
  module_globals !! lower (tc_name main_call) = Some BFunction
  /\ call def_call_tool_func [ToolCallDict main_call] 0
     = (Raise AttributeError, [], 0)
  /\ call def_call_tool_func [ToolCallDict main_call] 0
     <> (Ret PyNone, [PrintLine "Tool not found main"], 0)
  /\ resolve_loop [pdf_search_call] "" 0 = (Raise TypeError, [], 0)
  /\ result_of (resolve_loop [pdf_search_call] "" 0) <> Ret "None".
Proof.
  split; [vm_compute; reflexivity|].
  split; [vm_compute; reflexivity|].
  split; [vm_compute; discriminate|].
  split; [vm_compute; reflexivity|].
  vm_compute; discriminate.
Qed.

(** C6, amended: for every request whose lowercased name is not bound in
    the module's global namespace, [call_tool_func] called on the request
    prints "Tool not found" with that name and returns None, and [str] of
    that is the four-character string "None".  The tools' own names
    "pdf_search" and "internet_search" are such names. *)
Theorem unbound_tool_name_returns_none {World : Type} (tc : tool_call) (w : World) :
  module_globals !! lower (tc_name tc) = None ->
  call def_call_tool_func [ToolCallDict tc] w
  = (Ret PyNone, [PrintLine ("Tool not found " +:+ lower (tc_name tc))], w)
  /\ py_str PyNone = "None"
  /\ String.length (py_str PyNone) = 4
  /\ module_globals !! "pdf_search" = None
  /\ module_globals !! "internet_search" = None.
Proof.
  intros H. split.
  - unfold call, def_call_tool_func. cbn [params body List.length Nat.eqb].
    unfold call_tool_func. rewrite H. reflexivity.
  - repeat split; vm_compute; reflexivity.
Qed.

Lemma unbound_tool_name_returns_none_witness :
  call def_call_tool_func [ToolCallDict pdf_search_call] 0
  = (Ret PyNone, [PrintLine "Tool not found pdf_search"], 0).
Proof.
  apply (unbound_tool_name_returns_none pdf_search_call 0).
  vm_compute; reflexivity.
Defined.

(** C7 (with a tool call obtained within three probes, the regenerated
    answer built from the tool results is the final output, and there is one
    verification).  Not so: with the request for "internet_search" returned
    by the first probe, line 218 raises [TypeError]; the chain is invoked
    once, for the primary answer, never for a regeneration, and nothing is
    printed.  One verification is made. *)
Theorem tool_call_round_raises (question answer : string) :
  let run :=
    main_body (scripted answer "notGrounded" (fun _ => [web_search_call]))
              question 0 in
  run
  = (Raise TypeError,
     [ InvokeChain template question answer;
       InvokeGroundedness answer "notGrounded";
       InvokeLlm question [web_search_call] ],
     1)
  /\ printed (trace_of run) = []
  /\ count_events is_chain (trace_of run) = 1
  /\ count_events is_verification (trace_of run) = 1.
Proof. repeat split. Qed.

(** C8 (the context of a round [A, B, C] is the results of A, B and C put
    together in that order).  No context comes out of lines 216-218: the
    call for A raises [TypeError], and B and C are not looked at. *)
Theorem three_requests_no_context {World : Type} (A B C : tool_call)
    (context : string) (w : World) :
  resolve_loop [A; B; C] context w = (Raise TypeError, [], w).
Proof. apply resolve_loop_cons. Qed.

(** C9: an iteration makes one primary generation and at most one more
    invocation of the chain, one verification, at least one and at most
    three probes, and no probe after one that returned a non-empty list.
    [main_body] is a total function: every iteration ends. *)
Theorem main_body_bounded {World : Type} (svc : services World)
    (user_input : string) (w : World) :
  let t := trace_of (main_body svc user_input w) in
  1 <= count_events is_chain t <= 2
  /\ count_events is_verification t = 1
  /\ 1 <= count_events is_probe t <= 3
  /\ stops_at_first_nonempty (probes_of t) = true
  /\ exists (outcome : res flow) (w' : World),
       main_body svc user_input w = (outcome, t, w').
Proof.
  intros t. subst t.
  destruct (main_body_trace svc user_input w)
    as (response & verdict & probes & tail & Ht & Htail & Hne & Hlen & Hstop).
  rewrite Ht.
  assert (Hpos : 1 <= List.length probes).
  { destruct probes; [contradiction | cbn; lia]. }
  assert (Htl : count_events is_chain tail = 0
                /\ count_events is_verification tail = 0
                /\ count_events is_probe tail = 0
                /\ probes_of tail = []).
  { destruct Htail as [-> | ->]; repeat split. }
  destruct Htl as (T1 & T2 & T3 & T4).
  cbn [count_events is_chain is_verification is_probe probes_of].
  rewrite !count_events_app, probes_of_app, probes_of_map, count_probes_map.
  rewrite !count_other_map by reflexivity.
  rewrite T1, T2, T3, T4, app_nil_r.
  split; [lia|]. split; [lia|]. split; [lia|]. split; [exact Hstop|].
  rewrite <- Ht. unfold trace_of.
  destruct (main_body svc user_input w) as [[r t] w'].
  exists r, w'. reflexivity.
Qed.

(** C10: with services whose answers depend only on what they are asked,
    running the iteration for the same question a second time, in the world
    the first run left, gives the same outcome, the same printed lines and
    the same number of calls to the services (the same trace). *)
Theorem rerun_same_output_and_calls {World : Type} (svc : services World)
    (user_input : string) (w : World) :
  deterministic svc ->
  let first := main_body svc user_input w in
  let second := main_body svc user_input (world_of first) in
  result_of first = result_of second
  /\ printed (trace_of first) = printed (trace_of second)
  /\ count_events is_external (trace_of first)
     = count_events is_external (trace_of second)
  /\ trace_of first = trace_of second.
Proof.
  intros D first second.
  destruct (main_body_deterministic svc user_input w (world_of first) D) as [Hr Ht].
  fold first second in Hr, Ht.
  rewrite Hr, Ht. repeat split.
Qed.

Lemma rerun_same_output_and_calls_witness :
  let svc := scripted "I don't know" "notGrounded"
               (fun _ => [web_search_call]) in
  let first := main_body svc "What is the capital of Korea?" 0 in
  let second := main_body svc "What is the capital of Korea?" (world_of first) in
  deterministic svc
  /\ result_of first = result_of second
  /\ printed (trace_of first) = printed (trace_of second)
  /\ count_events is_external (trace_of first)
     = count_events is_external (trace_of second).
Proof.
  intros svc first second.
  assert (D : deterministic svc).
  { repeat split; intros; reflexivity. }
  split; [exact D|].
  destruct (rerun_same_output_and_calls svc "What is the capital of Korea?" 0 D)
    as (Hr & Hp & Hc & _).
  split; [exact Hr|]. split; [exact Hp|exact Hc].
Defined.

(** ** The model on small sessions *)

(** "EXIT" is lowercased before the test of line 198. *)
Example session_exit :
  main (scripted "Seoul" "grounded" (fun _ => [])) ["EXIT"; "never read"] 0
  = (Ret tt, [Input "You: " "EXIT"; CreateIndex], 0).
Proof. reflexivity. Qed.

(** At the end of standard input [input] raises and line 227 is not run. *)
Example session_end_of_input :
  main (scripted "Seoul" "grounded" (fun _ => [])) [] 0 = (Raise EOFError, [], 0).
Proof. reflexivity. Qed.

(** The second probe returns a request: there is no third probe. *)
Example probe_loop_stops_early :
  probe_loop (scripted "Seoul" "notGrounded"
                (fun n => if Nat.eqb n 1 then [web_search_call] else []))
             3 "What is the capital of Korea?" [] 0
  = (Ret [web_search_call],
     [ InvokeLlm "What is the capital of Korea?" [];
       InvokeLlm "What is the capital of Korea?" [web_search_call] ],
     2).
Proof. reflexivity. Qed.

(** With a call expression that returns strings, lines 216-218 build the
    context in request order. *)
Example resolve_with_in_order :
  resolve_with (fun tc => ret (PyStr (tc_name tc)))
               [pdf_search_call; web_search_call; unknown_call] "" 0
  = (Ret "pdf_searchinternet_searchcalculator", [], 0).
Proof. reflexivity. Qed.

(** * The set-up classes: properties *)

(** ** Names *)

Lemma endswith_app (a b : string) : endswith (a +:+ b) b = true.
Proof.
  induction a as [|c a IH].
  - change ("" +:+ b) with b. destruct b; cbn [endswith];
      rewrite String.eqb_refl; reflexivity.
  - rewrite str_app_cons. cbn [endswith]. rewrite IH. apply orb_true_r.
Qed.

Lemma endswith_numbered (counter : nat) : endswith (numbered counter) ".pdf" = true.
Proof. apply endswith_app. Qed.

Lemma str_length_app (a b : string) :
  String.length (a +:+ b) = String.length a + String.length b.
Proof.
  induction a as [|c a IH]; [reflexivity|].
  rewrite str_app_cons. cbn [String.length]. rewrite IH. reflexivity.
Qed.

Lemma str_app_inj_r (a b s : string) : a +:+ s = b +:+ s -> a = b.
Proof.
  revert b. induction a as [|c a IH]; intros [|d b] H.
  - reflexivity.
  - apply (f_equal String.length) in H.
    rewrite !str_length_app in H. cbn in H. lia.
  - apply (f_equal String.length) in H.
    rewrite !str_length_app in H. cbn in H. lia.
  - rewrite !str_app_cons in H. injection H as -> H.
    f_equal. apply IH, H.
Qed.

Lemma numbered_inj (i j : nat) : numbered i = numbered j -> i = j.
Proof.
  unfold numbered. intros H. apply str_app_inj_r in H.
  apply (inj pretty) in H. exact H.
Qed.

Lemma in_pdfs (x : string) (listing : list string) :
  In x (pdfs listing) <-> In x listing /\ endswith x ".pdf" = true.
Proof.
  unfold pdfs.
  exact (List.filter_In (fun filename => endswith filename ".pdf") x listing).
Qed.

(** ** [load_data] *)

Section DataLoaderFacts.
Context {File Docs : Type} (layout_load : string -> File -> Docs).

Lemma pdfs_cons (filename : string) (rest : list string) :
  pdfs (filename :: rest)
  = if endswith filename ".pdf" then filename :: pdfs rest else pdfs rest.
Proof. reflexivity. Qed.

Lemma load_loop_pdf (filename : string) (rest : list string) (counter : nat)
    (dir : gmap string File) (docs : gmap string Docs) (file : File) :
  endswith filename ".pdf" = true ->
  dir !! filename = Some file ->
  load_loop layout_load (filename :: rest) counter dir docs
  = load_loop layout_load rest (counter + 1)
      (<[numbered counter := file]> (delete filename dir))
      (<[numbered counter := layout_load (numbered counter) file]> docs).
Proof.
  intros E H. cbn [load_loop]. rewrite E. unfold os_rename. rewrite H.
  rewrite lookup_insert_eq. reflexivity.
Qed.

Lemma load_loop_missing (filename : string) (rest : list string) (counter : nat)
    (dir : gmap string File) (docs : gmap string Docs) :
  endswith filename ".pdf" = true ->
  dir !! filename = None ->
  load_loop layout_load (filename :: rest) counter dir docs
  = Failed (FileNotFoundError filename).
Proof.
  intros E H. cbn [load_loop]. rewrite E. unfold os_rename. rewrite H.
  reflexivity.
Qed.

Lemma load_loop_other (filename : string) (rest : list string) (counter : nat)
    (dir : gmap string File) (docs : gmap string Docs) :
  endswith filename ".pdf" = false ->
  load_loop layout_load (filename :: rest) counter dir docs
  = load_loop layout_load rest counter dir docs.
Proof. intros E. cbn [load_loop]. rewrite E. reflexivity. Qed.

(** What a finished loop leaves alone: the counter has advanced by the
    number of PDF names; a directory entry that is neither a renamed name
    nor one of the numbered names produced is as before, and so is a dict
    entry under any other key than those numbered names. *)
Lemma load_loop_frame (listing : list string) (counter : nat)
    (dir : gmap string File) (docs : gmap string Docs)
    (counter' : nat) (dir' : gmap string File) (docs' : gmap string Docs) :
  load_loop layout_load listing counter dir docs = Done (counter', dir', docs') ->
  counter' = counter + List.length (pdfs listing)
  /\ (forall x, ~ In x (pdfs listing) ->
                (forall i, counter <= i < counter' -> x <> numbered i) ->
                dir' !! x = dir !! x)
  /\ (forall x, (forall i, counter <= i < counter' -> x <> numbered i) ->
                docs' !! x = docs !! x).
Proof.
  revert counter dir docs.
  induction listing as [|filename rest IH]; intros counter dir docs H.
  - cbn in H. injection H as <- <- <-. cbn. split; [lia|]. split; reflexivity.
  - rewrite pdfs_cons. destruct (endswith filename ".pdf") eqn:E.
    + destruct (dir !! filename) as [file|] eqn:L.
      * rewrite (load_loop_pdf _ _ _ _ _ file E L) in H.
        apply IH in H as (Hc & Hdir & Hdocs).
        split; [cbn; lia|]. split.
        -- intros x Hx Hn.
           rewrite Hdir.
           ++ rewrite lookup_insert_ne by (intros Heq; apply (Hn counter); [lia|congruence]).
              apply lookup_delete_ne. intros ->. apply Hx. now left.
           ++ intros Hin. apply Hx. now right.
           ++ intros i Hi. apply Hn. lia.
        -- intros x Hn. rewrite Hdocs by (intros i Hi; apply Hn; lia).
           apply lookup_insert_ne. intros Heq. apply (Hn counter); [lia|congruence].
      * rewrite (load_loop_missing _ _ _ _ _ E L) in H. discriminate.
    + rewrite (load_loop_other _ _ _ _ _ E) in H. apply IH, H.
Qed.

(** The loop ends without an exception when the PDF names of the listing
    are distinct and all in the directory. *)
Lemma load_loop_done (listing : list string) (counter : nat)
    (dir : gmap string File) (docs : gmap string Docs) :
  NoDup (pdfs listing) ->
  (forall x, In x (pdfs listing) -> is_Some (dir !! x)) ->
  exists r, load_loop layout_load listing counter dir docs = Done r.
Proof.
  revert counter dir docs.
  induction listing as [|filename rest IH]; intros counter dir docs Hnd Hin.
  - eexists. reflexivity.
  - rewrite pdfs_cons in Hnd, Hin. destruct (endswith filename ".pdf") eqn:E.
    + destruct (Hin filename) as [file L]; [now left|].
      rewrite (load_loop_pdf _ _ _ _ _ file E L).
      apply NoDup_cons in Hnd as [Hfresh Hnd].
      apply IH; [exact Hnd|].
      intros x Hx.
      destruct (decide (x = numbered counter)) as [->|Hne].
      * rewrite lookup_insert_eq. eauto.
      * rewrite lookup_insert_ne by congruence.
        rewrite lookup_delete_ne.
        -- apply Hin. now right.
        -- intros ->. apply Hfresh. apply list_elem_of_In. exact Hx.
    + rewrite (load_loop_other _ _ _ _ _ E). apply IH; assumption.
Qed.

(** The keys of the dict after the loop: those it had, and the numbered
    names from the starting counter on. *)
Lemma load_loop_keys (listing : list string) (counter : nat)
    (dir : gmap string File) (docs : gmap string Docs)
    (counter' : nat) (dir' : gmap string File) (docs' : gmap string Docs) :
  load_loop layout_load listing counter dir docs = Done (counter', dir', docs') ->
  forall x, is_Some (docs' !! x)
            <-> is_Some (docs !! x)
                \/ exists i, counter <= i < counter' /\ x = numbered i.
Proof.
  revert counter dir docs.
  induction listing as [|filename rest IH]; intros counter dir docs H x.
  - cbn in H. injection H as <- <- <-. split; [now left|].
    intros [Hx|(i & Hi & _)]; [exact Hx|lia].
  - destruct (endswith filename ".pdf") eqn:E.
    + destruct (dir !! filename) as [file|] eqn:L.
      * rewrite (load_loop_pdf _ _ _ _ _ file E L) in H.
        pose proof (load_loop_frame _ _ _ _ _ _ _ H) as (Hc & _ & _).
        rewrite (IH _ _ _ H x). split.
        -- intros [Hx|(i & Hi & ->)].
           ++ destruct (decide (x = numbered counter)) as [->|Hne].
              ** right. exists counter. split; [lia|reflexivity].
              ** rewrite lookup_insert_ne in Hx by congruence. now left.
           ++ right. exists i. split; [lia|reflexivity].
        -- intros [Hx|(i & Hi & ->)].
           ++ left. destruct (decide (x = numbered counter)) as [->|Hne].
              ** rewrite lookup_insert_eq. eauto.
              ** rewrite lookup_insert_ne by congruence. exact Hx.
           ++ destruct (decide (i = counter)) as [->|Hne].
              ** left. rewrite lookup_insert_eq. eauto.
              ** right. exists i. split; [lia|reflexivity].
      * rewrite (load_loop_missing _ _ _ _ _ E L) in H. discriminate.
    + rewrite (load_loop_other _ _ _ _ _ E) in H. apply (IH _ _ _ H).
Qed.

(** One new key for each PDF name, when the numbered names are not yet keys
    of the dict. *)
Lemma load_loop_size (listing : list string) (counter : nat)
    (dir : gmap string File) (docs : gmap string Docs)
    (counter' : nat) (dir' : gmap string File) (docs' : gmap string Docs) :
  load_loop layout_load listing counter dir docs = Done (counter', dir', docs') ->
  (forall i, counter <= i -> docs !! numbered i = None) ->
  size docs' = size docs + List.length (pdfs listing).
Proof.
  revert counter dir docs.
  induction listing as [|filename rest IH]; intros counter dir docs H Hfresh.
  - cbn in H. injection H as <- <- <-. cbn. lia.
  - rewrite pdfs_cons. destruct (endswith filename ".pdf") eqn:E.
    + destruct (dir !! filename) as [file|] eqn:L.
      * rewrite (load_loop_pdf _ _ _ _ _ file E L) in H.
        rewrite (IH _ _ _ H).
        -- rewrite map_size_insert_None by (apply Hfresh; lia). cbn. lia.
        -- intros i Hi. rewrite lookup_insert_ne.
           ++ apply Hfresh. lia.
           ++ intros Heq. apply numbered_inj in Heq. lia.
      * rewrite (load_loop_missing _ _ _ _ _ E L) in H. discriminate.
    + rewrite (load_loop_other _ _ _ _ _ E) in H. apply (IH _ _ _ H Hfresh).
Qed.

(** When no numbered name about to be produced is the name of a PDF still
    to come in the listing, the [i]-th PDF of the listing ends up under the
    [i]-th numbered name, in the directory and, loaded, in the dict. *)
Lemma load_loop_renumbers (listing : list string) (counter : nat)
    (dir : gmap string File) (docs : gmap string Docs)
    (counter' : nat) (dir' : gmap string File) (docs' : gmap string Docs) :
  NoDup (pdfs listing) ->
  (forall i j, i < j -> pdfs listing !! j <> Some (numbered (counter + i))) ->
  load_loop layout_load listing counter dir docs = Done (counter', dir', docs') ->
  forall i p, pdfs listing !! i = Some p ->
    exists file,
      dir !! p = Some file
      /\ dir' !! numbered (counter + i) = Some file
      /\ docs' !! numbered (counter + i)
         = Some (layout_load (numbered (counter + i)) file).
Proof.
  revert counter dir docs.
  induction listing as [|filename rest IH]; intros counter dir docs Hnd Hclash H i p Hp.
  - cbn in Hp. discriminate.
  - rewrite pdfs_cons in Hnd, Hclash, Hp. destruct (endswith filename ".pdf") eqn:E.
    + destruct (dir !! filename) as [file|] eqn:L.
      2:{ rewrite (load_loop_missing _ _ _ _ _ E L) in H. discriminate. }
      rewrite (load_loop_pdf _ _ _ _ _ file E L) in H.
      apply NoDup_cons in Hnd as [Hfresh Hnd].
      assert (Hclash' : forall i j, i < j ->
                pdfs rest !! j <> Some (numbered (counter + 1 + i))).
      { intros i' j' Hij. specialize (Hclash (S i') (S j') ltac:(lia)).
        cbn in Hclash. replace (counter + 1 + i') with (counter + S i') by lia.
        exact Hclash. }
      destruct i as [|i].
      * cbn in Hp. injection Hp as <-. exists file. split; [exact L|].
        pose proof (load_loop_frame _ _ _ _ _ _ _ H) as (Hc & Hdir & Hdocs).
        replace (counter + 0) with counter by lia.
        assert (Hnum : forall k, counter + 1 <= k < counter' ->
                  numbered counter <> numbered k).
        { intros k Hk Heq. apply numbered_inj in Heq. lia. }
        split.
        -- rewrite Hdir; [apply lookup_insert_eq| |exact Hnum].
           intros Hin. apply list_elem_of_In, list_elem_of_lookup in Hin as [j Hj].
           apply (Hclash 0 (S j)); [lia|]. cbn.
           replace (counter + 0) with counter by lia. exact Hj.
        -- rewrite Hdocs; [apply lookup_insert_eq|exact Hnum].
      * cbn in Hp.
        destruct (IH _ _ _ Hnd Hclash' H i p Hp) as (f & Hf & Hd & Hdoc).
        replace (counter + S i) with (counter + 1 + i) by lia.
        exists f. split; [|split; assumption].
        assert (p <> numbered counter).
        { intros ->. apply (Hclash 0 (S i)); [lia|]. cbn.
          replace (counter + 0) with counter by lia. exact Hp. }
        assert (p <> filename).
        { intros ->. apply Hfresh. apply list_elem_of_lookup. eauto. }
        rewrite lookup_insert_ne in Hf by congruence.
        rewrite lookup_delete_ne in Hf by congruence. exact Hf.
    + rewrite (load_loop_other _ _ _ _ _ E) in H.
      apply (IH _ _ _ Hnd Hclash H i p Hp).
Qed.

End DataLoaderFacts.

Lemma load_data_done {File Docs : Type} (layout_load : string -> File -> Docs)
    (self : DataLoader) (listing : list string) (dir : gmap string File) :
  NoDup listing ->
  (forall x, In x listing -> is_Some (dir !! x)) ->
  exists self' dir', load_data layout_load self listing dir = Done (self', dir').
Proof.
  intros Hnd Hin. unfold load_data.
  destruct (load_loop_done layout_load listing 1 dir (docs_dict self))
    as [[[c dir'] docs'] ->].
  - unfold pdfs. apply NoDup_ListNoDup, List.NoDup_filter.
    apply NoDup_ListNoDup, Hnd.
  - intros x Hx. apply Hin. apply in_pdfs in Hx. tauto.
  - eauto.
Qed.

(** X1: when the listing has no name twice and every listed name is in the
    directory, [load_data] returns: no [os.rename] finds its source
    missing, although earlier renames have changed the directory. *)
Theorem load_data_completes {File Docs : Type} (layout_load : string -> File -> Docs)
    (self : DataLoader) (listing : list string) (dir : gmap string File) :
  NoDup listing ->
  (forall x, In x listing -> is_Some (dir !! x)) ->
  exists self' dir', load_data layout_load self listing dir = Done (self', dir').
Proof. apply load_data_done. Qed.

Lemma load_data_completes_witness :
  exists self' dir',
    load_data sample_load (DataLoader_init "data/") sample_listing sample_dir
    = Done (self', dir').
Proof.
  apply (load_data_completes sample_load (DataLoader_init "data/")
           sample_listing sample_dir).
  - compute_done.
  - intros x [<-|[<-|[<-|[]]]]; vm_compute; eauto.
Defined.

(** X2: after [load_data] on a new [DataLoader], the keys of the dict are
    exactly "1.pdf", ..., "k.pdf" for the [k] listed names that end in
    ".pdf", one entry each, whatever the files were called. *)
Theorem load_data_keys {File Docs : Type} (layout_load : string -> File -> Docs)
    (path : string) (listing : list string) (dir : gmap string File)
    (self' : DataLoader) (dir' : gmap string File) :
  load_data layout_load (DataLoader_init path) listing dir = Done (self', dir') ->
  (forall x, is_Some (docs_dict self' !! x)
             <-> exists i, 1 <= i <= List.length (pdfs listing) /\ x = numbered i)
  /\ size (docs_dict self') = List.length (pdfs listing).
Proof.
  unfold load_data. cbn [docs_dict DataLoader_init].
  destruct (load_loop layout_load listing 1 dir empty)
    as [[[c d] docs']|e] eqn:H; [|discriminate].
  intros [= <- <-]. cbn [docs_dict].
  pose proof (load_loop_frame _ _ _ _ _ _ _ _ H) as (Hc & _ & _).
  split.
  - intros x. rewrite (load_loop_keys _ _ _ _ _ _ _ _ H x). split.
    + intros [[v Hv]|(i & Hi & ->)].
      * rewrite lookup_empty in Hv. discriminate.
      * exists i. split; [lia|reflexivity].
    + intros (i & Hi & ->). right. exists i. split; [lia|reflexivity].
  - rewrite (load_loop_size _ _ _ _ _ _ _ _ H).
    + rewrite map_size_empty. lia.
    + intros i _. apply lookup_empty.
Qed.

Lemma load_data_keys_witness :
  exists self' dir',
    load_data sample_load (DataLoader_init "data/") sample_listing sample_dir
    = Done (self', dir')
    /\ size (docs_dict self') = 2.
Proof.
  assert (H : exists self' dir',
             load_data sample_load (DataLoader_init "data/") sample_listing
               sample_dir = Done (self', dir')).
  { vm_compute. eauto. }
  destruct H as (self' & dir' & H).
  exists self', dir'. split; [exact H|].
  exact (proj2 (load_data_keys sample_load "data/" sample_listing sample_dir
                  self' dir' H)).
Defined.

(** X3: [load_data] touches only names that end in ".pdf": any other entry
    of the directory is as it was, and so is any dict entry under such a
    key. *)
Theorem load_data_keeps_other_files {File Docs : Type}
    (layout_load : string -> File -> Docs) (self : DataLoader)
    (listing : list string) (dir : gmap string File)
    (self' : DataLoader) (dir' : gmap string File) (x : string) :
  load_data layout_load self listing dir = Done (self', dir') ->
  endswith x ".pdf" = false ->
  dir' !! x = dir !! x /\ docs_dict self' !! x = docs_dict self !! x.
Proof.
  unfold load_data.
  destruct (load_loop layout_load listing 1 dir (docs_dict self))
    as [[[c d] docs']|e] eqn:H; [|discriminate].
  intros [= <- <-] Hx. cbn [docs_dict].
  pose proof (load_loop_frame _ _ _ _ _ _ _ _ H) as (_ & Hdir & Hdocs).
  assert (Hnum : forall i, 1 <= i < c -> x <> numbered i).
  { intros i _ ->. rewrite endswith_numbered in Hx. discriminate. }
  split.
  - apply Hdir; [|exact Hnum].
    intros Hin. apply in_pdfs in Hin as [_ Hin]. congruence.
  - apply Hdocs, Hnum.
Qed.

Lemma load_data_keeps_other_files_witness :
  exists self' dir',
    load_data sample_load (DataLoader_init "data/") sample_listing sample_dir
    = Done (self', dir')
    /\ dir' !! "notes.txt" = Some 30.
Proof.
  assert (H : exists self' dir',
             load_data sample_load (DataLoader_init "data/") sample_listing
               sample_dir = Done (self', dir')).
  { vm_compute. eauto. }
  destruct H as (self' & dir' & H).
  exists self', dir'. split; [exact H|].
  exact (proj1 (load_data_keeps_other_files sample_load _ sample_listing
                  sample_dir self' dir' "notes.txt" H eq_refl)).
Defined.

(** X4: when the listing has no name twice, every listed name is in the
    directory, and no name "i.pdf" that the loop gives out is the name of a
    PDF listed later, then [load_data] returns and the [i]-th listed PDF is
    afterwards the file "i.pdf", with its documents under the key
    "i.pdf". *)
Theorem load_data_renumbers {File Docs : Type}
    (layout_load : string -> File -> Docs) (self : DataLoader)
    (listing : list string) (dir : gmap string File) :
  NoDup listing ->
  (forall x, In x listing -> is_Some (dir !! x)) ->
  (forall i j, i < j -> pdfs listing !! j <> Some (numbered (1 + i))) ->
  exists self' dir',
    load_data layout_load self listing dir = Done (self', dir')
    /\ forall i p, pdfs listing !! i = Some p ->
         exists file,
           dir !! p = Some file
           /\ dir' !! numbered (1 + i) = Some file
           /\ docs_dict self' !! numbered (1 + i)
              = Some (layout_load (numbered (1 + i)) file).
Proof.
  intros Hnd Hin Hclash.
  destruct (load_data_done layout_load self listing dir Hnd Hin)
    as (self' & dir' & H).
  exists self', dir'. split; [exact H|].
  unfold load_data in H.
  destruct (load_loop layout_load listing 1 dir (docs_dict self))
    as [[[c d] docs']|e] eqn:HL; [|discriminate].
  injection H as <- <-. cbn [docs_dict].
  apply (load_loop_renumbers layout_load listing 1 dir (docs_dict self) c d docs');
    [|exact Hclash|exact HL].
  unfold pdfs. apply NoDup_ListNoDup, List.NoDup_filter.
  apply NoDup_ListNoDup, Hnd.
Qed.

Lemma load_data_renumbers_witness :
  exists self' dir',
    load_data sample_load (DataLoader_init "data/") sample_listing sample_dir
    = Done (self', dir')
    /\ exists file,
         sample_dir !! "b.pdf" = Some file
         /\ dir' !! "1.pdf" = Some file
         /\ docs_dict self' !! "1.pdf" = Some (file + 1).
Proof.
  destruct (load_data_renumbers sample_load (DataLoader_init "data/")
              sample_listing sample_dir) as (self' & dir' & H & Hall).
  - compute_done.
  - intros x [<-|[<-|[<-|[]]]]; vm_compute; eauto.
  - intros i [|[|j]] Hij; [lia| |discriminate].
    assert (i = 0) as -> by lia. vm_compute. discriminate.
  - exists self', dir'. split; [exact H|].
    exact (Hall 0 "b.pdf" eq_refl).
Defined.

(** X5: a PDF that already has the name the counter gives out next is
    lost.  With a directory listed as [a, "1.pdf"], the first rename puts
    [a] over "1.pdf" and the second moves it on to "2.pdf": afterwards
    there is no "1.pdf", and both dict entries are the documents of what
    was [a]. *)
Theorem load_data_overwrites_numbered_file {File Docs : Type}
    (layout_load : string -> File -> Docs) (path a : string)
    (fa f1 : File) (dir : gmap string File) :
  endswith a ".pdf" = true ->
  a <> "1.pdf" ->
  dir !! a = Some fa ->
  dir !! "1.pdf" = Some f1 ->
  exists self' dir',
    load_data layout_load (DataLoader_init path) [a; "1.pdf"] dir
    = Done (self', dir')
    /\ dir' !! "1.pdf" = None
    /\ dir' !! "2.pdf" = Some fa
    /\ docs_dict self' !! "1.pdf" = Some (layout_load "1.pdf" fa)
    /\ docs_dict self' !! "2.pdf" = Some (layout_load "2.pdf" fa).
Proof.
  intros Ea Hne La L1. unfold load_data. cbn [docs_dict DataLoader_init].
  rewrite (load_loop_pdf layout_load a ["1.pdf"] 1 dir empty fa Ea La).
  change (numbered 1) with "1.pdf".
  rewrite (load_loop_pdf layout_load "1.pdf" [] (1 + 1) _ _ fa eq_refl
             (lookup_insert_eq _ _ _)).
  change (numbered (1 + 1)) with "2.pdf". cbn [load_loop].
  eexists _, _. split; [reflexivity|]. cbn [docs_dict].
  split; [|split; [|split]].
  - rewrite lookup_insert_ne by discriminate. apply lookup_delete_eq.
  - apply lookup_insert_eq.
  - rewrite lookup_insert_ne by discriminate. apply lookup_insert_eq.
  - apply lookup_insert_eq.
Qed.

Lemma load_data_overwrites_numbered_file_witness :
  exists self' dir',
    load_data sample_load (DataLoader_init "data/") ["b.pdf"; "1.pdf"]
      (list_to_map [("1.pdf", 11); ("b.pdf", 20)])
    = Done (self', dir')
    /\ dir' !! "1.pdf" = None
    /\ dir' !! "2.pdf" = Some 20
    /\ docs_dict self' !! "1.pdf" = Some 21
    /\ docs_dict self' !! "2.pdf" = Some 21.
Proof.
  apply (load_data_overwrites_numbered_file sample_load "data/" "b.pdf" 20 11).
  - reflexivity.
  - discriminate.
  - vm_compute. reflexivity.
  - vm_compute. reflexivity.
Defined.

(** ** [OracleDB] *)

(** X6: [OracleDB()] reads DB_USER, DB_PASSWORD and DSN in that order: it
    raises [KeyError] for the first of them that is not set, and otherwise
    gives an object with the three values and no connection. *)
Theorem OracleDB_init_reads_environment {Conn : Type}
    (environ : gmap string string) :
  match OracleDB_init (Conn := Conn) environ with
  | Done self =>
      environ !! "DB_USER" = Some (username self)
      /\ environ !! "DB_PASSWORD" = Some (password self)
      /\ environ !! "DSN" = Some (dsn self)
      /\ conn self = None
  | Failed e =>
      (environ !! "DB_USER" = None /\ e = KeyError "DB_USER")
      \/ (is_Some (environ !! "DB_USER")
          /\ environ !! "DB_PASSWORD" = None /\ e = KeyError "DB_PASSWORD")
      \/ (is_Some (environ !! "DB_USER")
          /\ is_Some (environ !! "DB_PASSWORD")
          /\ environ !! "DSN" = None /\ e = KeyError "DSN")
  end.
Proof.
  unfold OracleDB_init, environ_getitem.
  destruct (environ !! "DB_USER") as [user|]; [|left; split; reflexivity].
  destruct (environ !! "DB_PASSWORD") as [pass|];
    [|right; left; split; [eauto|split; reflexivity]].
  destruct (environ !! "DSN") as [name|].
  - cbn. repeat split.
  - right; right. split; [eauto|]. split; [eauto|]. split; reflexivity.
Qed.

(** X7: [connect] never raises and always prints one line.  What it returns
    is the connection the object holds afterwards; it is None only when
    [oracledb.connect] raised and the object held none before; and when
    [oracledb.connect] raises, the connection of an earlier call is
    returned again, next to "Connection failed!". *)
Theorem connect_returns_held_connection {Conn World : Type}
    (drv : driver (Conn := Conn) (World := World)) (self : OracleDB) (w : World) :
  let attempt :=
    fst (oracledb_connect drv (username self) (password self) (dsn self) w) in
  let '(returned, lines, self', _) := connect drv self w in
  returned = conn self'
  /\ (exists line, lines = [line])
  /\ (returned = None <-> attempt = None /\ conn self = None)
  /\ (attempt = None -> returned = conn self /\ lines = ["Connection failed!"]).
Proof.
  unfold connect.
  destruct (oracledb_connect drv (username self) (password self) (dsn self) w)
    as [[c|] w']; cbn [fst].
  - destruct (version drv c) as [v|]; cbn [conn].
    + split; [reflexivity|]. split; [eauto|]. split; [|discriminate].
      split; [discriminate|]. intros [? _]. discriminate.
    + split; [reflexivity|]. split; [eauto|]. split; [|discriminate].
      split; [discriminate|]. intros [? _]. discriminate.
  - split; [reflexivity|]. split; [eauto|]. split; [tauto|].
    intros _. split; reflexivity.
Qed.

(** ** [Tools] and the set-up of [main] *)

Lemma Tools_init_fails (builtins : gset string) :
  ~ elem_of "pdf_search" builtins ->
  Tools_init builtins = Failed (NameError "pdf_search").
Proof.
  intros H. unfold Tools_init, load_global.
  change (module_globals !! "pdf_search") with (@None binding).
  rewrite bool_decide_eq_false_2 by exact H. reflexivity.
Qed.

(** X8: [Tools()] raises [NameError] for [pdf_search]: the name is used
    bare in [__init__], it is bound in the class body and not in the
    module, and it is no builtin. *)
Theorem Tools_init_raises_NameError (builtins : gset string) :
  ~ elem_of "pdf_search" builtins ->
  Tools_init builtins = Failed (NameError "pdf_search").
Proof. apply Tools_init_fails. Qed.

Lemma Tools_init_raises_NameError_witness :
  Tools_init some_builtins = Failed (NameError "pdf_search").
Proof.
  apply (Tools_init_raises_NameError some_builtins). compute_done.
Defined.

(** X9: the set-up of [main] never completes: whatever the libraries, the
    environment and the directory are, lines 177-194 end with an
    exception, at line 193 at the latest, so the loop of line 196 is not
    reached. *)
Theorem main_setup_never_completes {File Docs Conn World : Type}
    (lib : libraries (File := File) (Docs := Docs) (Conn := Conn) (World := World))
    (environ : gmap string string) (builtins : gset string)
    (dir : gmap string File) (w : World) :
  ~ elem_of "pdf_search" builtins ->
  exists e, fst (main_setup lib environ builtins dir w) = Failed e.
Proof.
  intros H. unfold main_setup.
  destruct (os_listdir lib "data/") as [listing|e]; cbn [and_then]; [|eauto].
  destruct (load_data _ _ listing dir) as [loaded|e]; cbn [and_then]; [|eauto].
  destruct (environ_getitem environ "UPSTAGE_API_KEY") as [key|e];
    cbn [and_then]; [|eauto].
  destruct (chat lib _) as [chat_result|e]; cbn [and_then]; [|eauto].
  unfold printing at 1. cbn [fst].
  destruct (OracleDB_init environ) as [oracle_db|e]; cbn [and_then]; [|eauto].
  destruct (connect (db lib) oracle_db w) as [[[c lines] self'] w'].
  unfold printing. cbn [fst].
  destruct (new_embedding_settings lib c _) as [?|e]; cbn [and_then]; [|eauto].
  destruct (get_vector_store lib) as [?|e]; cbn [and_then]; [|eauto].
  destruct (as_retriever lib) as [?|e]; cbn [and_then]; [|eauto].
  destruct (new_llm_invoker lib) as [?|e]; cbn [and_then]; [|eauto].
  rewrite (Tools_init_fails builtins H). cbn [and_then]. eauto.
Qed.

Lemma main_setup_never_completes_witness :
  exists e,
    fst (main_setup working_libraries working_environ some_builtins sample_dir 0)
    = Failed e.
Proof.
  apply (main_setup_never_completes working_libraries working_environ
           some_builtins sample_dir 0).
  compute_done.
Defined.

(** ** More on the loop *)



Lemma lower_char_idempotent (c : ascii) : lower_char (lower_char c) = lower_char c.
Proof. destruct c as [[] [] [] [] [] [] [] []]; reflexivity. Qed.

Lemma lower_idempotent (s : string) : lower (lower s) = lower s.
Proof.
  induction s as [|c s IH]; [reflexivity|].
  cbn [lower]. rewrite lower_char_idempotent, IH. reflexivity.
Qed.

(** The loop itself never creates the index. *)
Lemma main_loop_no_index {World : Type} (svc : services World)
    (stdin : list string) (w : World) :
  ~ In CreateIndex (trace_of (main_loop svc stdin w)).
Proof.
  destruct stdin as [|user_input rest]; [intros []|].
  rewrite (main_loop_reads_one_line svc user_input rest [] w).
  cbn [main_loop]. unfold bind at 1. unfold emit at 1.
  destruct (str_in (lower user_input) ["exit"; "quit"]).
  - cbn. intros [H|[]]. discriminate.
  - unfold bind.
    destruct (main_body_trace svc user_input w)
      as (response & verdict & probes & tail & Ht & Htail & _).
    unfold trace_of in *.
    destruct (main_body svc user_input w) as [[r t] w']. cbn [fst snd] in *.
    assert (Hn : ~ In CreateIndex t).
    { subst t. intros [H|[H|H]]; try discriminate.
      apply in_app_or in H as [H|H].
      - apply in_map_iff in H as (x & Hx & _). discriminate.
      - destruct Htail as [-> | ->]; [destruct H|].
        destruct H as [H|[]]. discriminate. }
    destruct r as [[]|e]; cbn; rewrite ?app_nil_r;
      (intros [H|H]; [discriminate|exact (Hn H)]).
Qed.


(** X11: a session handles one line of standard input.  Whatever follows
    the first line is never read: [main] on a longer input does exactly
    what it does on the first line alone. *)
Theorem session_reads_one_line {World : Type} (svc : services World)
    (user_input : string) (rest : list string) (w : World) :
  main svc (user_input :: rest) w = main svc [user_input] w.
Proof.
  unfold main, bind.
  rewrite (main_loop_reads_one_line svc user_input rest [] w). reflexivity.
Qed.

(** X12: a first line that is "exit" or "quit" in any letter case ends the
    session at once: no service is called, the world is unchanged, and the
    index is created. *)
Theorem exit_ends_session {World : Type} (svc : services World)
    (user_input : string) (rest : list string) (w : World) :
  str_in (lower user_input) ["exit"; "quit"] = true ->
  main svc (user_input :: rest) w
  = (Ret tt, [Input "You: " user_input; CreateIndex], w).
Proof.
  intros H. unfold main. cbn [main_loop]. unfold bind, emit, ret.
  rewrite H. reflexivity.
Qed.

Lemma exit_ends_session_witness :
  main (scripted "Seoul" "grounded" (fun _ => [web_search_call]))
       ["QuIt"; "What is the capital of Korea?"] 0
  = (Ret tt, [Input "You: " "QuIt"; CreateIndex], 0).
Proof.
  apply (exit_ends_session
           (scripted "Seoul" "grounded" (fun _ => [web_search_call]))
           "QuIt" ["What is the capital of Korea?"] 0).
  reflexivity.
Defined.

(** X13: the index is created exactly when [main] returns: in every
    session [create_index] has been called if and only if no exception
    ended the session. *)
Theorem index_created_iff_main_returns {World : Type} (svc : services World)
    (stdin : list string) (w : World) :
  In CreateIndex (trace_of (main svc stdin w))
  <-> result_of (main svc stdin w) = Ret tt.
Proof.
  pose proof (main_loop_no_index svc stdin w) as Hn.
  unfold main, bind, emit, result_of, trace_of in *.
  destruct (main_loop svc stdin w) as [[[[]|e] t] w']; cbn [fst snd] in *.
  - split; [reflexivity|]. intros _. apply in_or_app. right. now left.
  - split; [intros H; contradiction|discriminate].
Qed.

(** X14: the probe loop returns the first non-empty answer.  When the
    first [k] probes are empty and the next one is not, with [k] below the
    bound, the loop makes exactly those [k + 1] probes and returns what the
    last of them returned. *)
Theorem probe_loop_first_success {World : Type} (svc : services World)
    (n k : nat) (user_input : string) (tool_calls : list tool_call) (w : World) :
  k < n ->
  probes_empty svc k user_input w = true ->
  let last := llm_invoke svc user_input (world_after_probes svc k user_input w) in
  truthy (fst last) = true ->
  probe_loop svc n user_input tool_calls w
  = (Ret (fst last),
     repeat (InvokeLlm user_input []) k ++ [InvokeLlm user_input (fst last)],
     snd last).
Proof.
  revert n tool_calls w.
  induction k as [|k IH]; intros n tool_calls w Hk He last Hl; subst last;
    (destruct n as [|n]; [lia|]); cbn [probe_loop world_after_probes] in *.
  - unfold bind, service.
    destruct (llm_invoke svc user_input w) as [tcs w'].
    cbn [fst snd] in *. rewrite Hl. reflexivity.
  - cbn [probes_empty] in He. unfold bind, service.
    destruct (llm_invoke svc user_input w) as [tcs w'].
    cbn [fst snd] in *. apply andb_prop in He as [Hempty He].
    destruct tcs as [|tc tcs]; [|discriminate]. cbn [truthy].
    rewrite (IH n [] w' ltac:(lia) He Hl). reflexivity.
Qed.

Lemma probe_loop_first_success_witness :
  probe_loop (scripted "Seoul" "notGrounded"
                (fun n => if Nat.eqb n 1 then [web_search_call] else []))
             3 "What is the capital of Korea?" [] 0
  = (Ret [web_search_call],
     [ InvokeLlm "What is the capital of Korea?" [];
       InvokeLlm "What is the capital of Korea?" [web_search_call] ],
     2).
Proof.
  apply (probe_loop_first_success
           (scripted "Seoul" "notGrounded"
              (fun n => if Nat.eqb n 1 then [web_search_call] else []))
           3 1 "What is the capital of Korea?" [] 0).
  - lia.
  - reflexivity.
  - reflexivity.
Defined.

(** Every class name of the module has a capital letter. *)
Lemma class_names_not_lowercase (name : string) (has_invoke : bool) :
  module_globals !! name = Some (BClass has_invoke) -> lower name <> name.
Proof.
  unfold module_globals. intros H. apply elem_of_list_to_map_2 in H.
  repeat (apply elem_of_cons in H as [H|H];
          [inversion H; subst; try (vm_compute; discriminate)|]).
  apply elem_of_nil in H. destruct H.
Qed.

(** X15: [call_tool_func] never calls a tool.  Called on any request it
    either prints "Tool not found" with the lowercased name and returns
    None, or, when the lowercased name is a module global, raises
    [AttributeError]; a class cannot be selected, its name not being
    lowercase. *)
Theorem call_tool_func_never_calls_a_tool {World : Type} (tc : tool_call) (w : World) :
  call def_call_tool_func [ToolCallDict tc] w
  = (Ret PyNone, [PrintLine ("Tool not found " +:+ lower (tc_name tc))], w)
  \/ call def_call_tool_func [ToolCallDict tc] w = (Raise AttributeError, [], w).
Proof.
  unfold call, def_call_tool_func. cbn [params body List.length Nat.eqb].
  unfold call_tool_func.
  destruct (module_globals !! lower (tc_name tc)) as [b|] eqn:L.
  - right. destruct b as [| |[]|]; try reflexivity.
    exfalso. apply (class_names_not_lowercase _ _ L). apply lower_idempotent.
  - left. reflexivity.
Qed.
